(** * The MQTT-to-InfluxDB bridge of lesson5/homework5/backend/backend.py

    A shallow embedding of the [on_message] callback registered by
    [create_mqtt_receiver] (backend.py, lines 121-163), together with the
    Python operations it relies on, and the properties of the callback.

    Conventions of the embedding.
    - A Python [str] is a Rocq [string]; every character stands for one code
      point below 256.
    - A Python [float] is a primitive binary64 float; the callback never
      computes with it, it only tests its type and stores it.
    - The value produced by [json.loads] is a [pyval]; keys of a JSON object
      are strings and a [dict] keeps them in insertion order.
    - Logging, the call of [json.loads] and the call of [write_points] are
      recorded, in order, in a trace carried by the state; an exception
      keeps the state reached when it was raised. *)

From Stdlib Require Import List String Ascii ZArith Bool Lia.
From Stdlib Require Import Floats.PrimFloat.
Import ListNotations.

Local Open Scope string_scope.
Local Open Scope list_scope.

(** ** Python values *)

Set Warnings "-register-all".

Inductive pyval : Type :=
| PyNone
| PyBool (b : bool)
| PyInt (z : Z)
| PyFloat (f : float)
| PyStr (s : string)
| PyList (l : list pyval)
| PyDict (d : list (string * pyval)).

(** The exceptions that can leave the callback. [JSONDecodeError] is a
    subclass of [ValueError] in Python; it is kept apart to tell the failure
    of [json.loads] from the failure of [strptime]. [SinkUnavailable] stands
    for whatever [write_points] raises when the database cannot be reached. *)
Inductive exn : Type :=
| TypeError
| ValueError
| KeyError
| IndexError
| AttributeError
| UnicodeDecodeError
| JSONDecodeError
| SinkUnavailable.

Inductive result (A : Type) : Type :=
| Ok (a : A)
| Raise (e : exn).
Arguments Ok {A} a.
Arguments Raise {A} e.

(** ** Strings *)

(** [s.split("/")] for a one-character separator: never empty, one more
    segment than there are separators. *)
Fixpoint py_split (sep : ascii) (s : string) : list string :=
  match s with
  | EmptyString => [EmptyString]
  | String c r =>
      if Ascii.eqb c sep then EmptyString :: py_split sep r
      else match py_split sep r with
           | h :: t => String c h :: t
           | [] => [String c EmptyString]
           end
  end.

(** [needle in s] on strings: substring test. *)
Fixpoint py_str_contains (needle s : string) : bool :=
  String.prefix needle s ||
  match s with
  | EmptyString => false
  | String _ r => py_str_contains needle r
  end.

(** The characters of a string, as one-character strings ([for c in s]). *)
Fixpoint py_chars (s : string) : list string :=
  match s with
  | EmptyString => []
  | String c r => String c EmptyString :: py_chars r
  end.

(** ** Dictionaries, membership, subscription *)

Fixpoint dict_lookup (k : string) (d : list (string * pyval)) : option pyval :=
  match d with
  | [] => None
  | (k', v) :: r => if String.eqb k' k then Some v else dict_lookup k r
  end.

Definition dict_keys (d : list (string * pyval)) : list string := map fst d.

Definition is_str (k : string) (v : pyval) : bool :=
  match v with
  | PyStr s => String.eqb s k
  | _ => false
  end.

(** [k in x] for a string [k]: key test on a dict, element test on a list,
    substring test on a string, [TypeError] on anything else. *)
Definition py_contains (k : string) (x : pyval) : result bool :=
  match x with
  | PyDict d => Ok (match dict_lookup k d with Some _ => true | None => false end)
  | PyList l => Ok (existsb (is_str k) l)
  | PyStr s => Ok (py_str_contains k s)
  | _ => Raise TypeError
  end.

(** Sequence indexing with Python's negative indices. *)
Definition seq_index {A : Type} (l : list A) (i : Z) : result A :=
  let n := Z.of_nat (List.length l) in
  let j := if (i <? 0)%Z then (i + n)%Z else i in
  if ((0 <=? j)%Z && (j <? n)%Z)%bool then
    match nth_error l (Z.to_nat j) with
    | Some a => Ok a
    | None => Raise IndexError
    end
  else Raise IndexError.

(** [x[k]]. *)
Definition py_getitem (x k : pyval) : result pyval :=
  match x with
  | PyDict d =>
      match k with
      | PyStr s => match dict_lookup s d with
                   | Some v => Ok v
                   | None => Raise KeyError
                   end
      | PyList _ | PyDict _ => Raise TypeError
      | _ => Raise KeyError
      end
  | PyList l =>
      match k with
      | PyInt i => seq_index l i
      | PyBool b => seq_index l (if b then 1 else 0)%Z
      | _ => Raise TypeError
      end
  | PyStr s =>
      match k with
      | PyInt i =>
          match seq_index (py_chars s) i with
          | Ok c => Ok (PyStr c)
          | Raise e => Raise e
          end
      | PyBool b =>
          match seq_index (py_chars s) (if b then 1 else 0)%Z with
          | Ok c => Ok (PyStr c)
          | Raise e => Raise e
          end
      | _ => Raise TypeError
      end
  | _ => Raise TypeError
  end.

(** [x.get(k)]: only a dict has the method. *)
Definition py_get (x : pyval) (k : string) : result pyval :=
  match x with
  | PyDict d => Ok (match dict_lookup k d with Some v => v | None => PyNone end)
  | _ => Raise AttributeError
  end.

(** Truth value of a Python object and the [or] operator. *)
Definition py_truthy (v : pyval) : bool :=
  match v with
  | PyNone => false
  | PyBool b => b
  | PyInt z => negb (Z.eqb z 0)
  | PyFloat f => negb (PrimFloat.eqb f 0%float)
  | PyStr s => negb (String.eqb s EmptyString)
  | PyList l => match l with [] => false | _ => true end
  | PyDict d => match d with [] => false | _ => true end
  end.

Definition py_or (a b : pyval) : pyval := if py_truthy a then a else b.

(** The values a [for] loop draws from an object. *)
Definition py_iter (x : pyval) : result (list pyval) :=
  match x with
  | PyDict d => Ok (map PyStr (dict_keys d))
  | PyList l => Ok l
  | PyStr s => Ok (map PyStr (py_chars s))
  | _ => Raise TypeError
  end.

(** ** [datetime.strptime(s, "%Y-%m-%d %H:%M:%S")]

    The library turns the format into a regular expression, one group per
    directive, and matches it with backtracking at the start of the string;
    a match that does not reach the end of the string, a date that does not
    exist and a second above 59 are all [ValueError]. The groups below are
    the alternatives of the library's table, tried in its order. *)

Definition TIMESTAMP_FMT : string := "%Y-%m-%d %H:%M:%S".

Record datetime : Type := mkDatetime {
  dt_year : Z; dt_month : Z; dt_day : Z;
  dt_hour : Z; dt_minute : Z; dt_second : Z
}.

Module Strptime.

Definition cls : Type := ascii -> bool.

Definition code (c : ascii) : nat := nat_of_ascii c.

Definition between (lo hi : ascii) : cls :=
  fun c => (Nat.leb (code lo) (code c) && Nat.leb (code c) (code hi))%bool.

Definition only (a : ascii) : cls := fun c => Ascii.eqb c a.

(** [\d] on code points below 256. *)
Definition digit : cls := between "0" "9".

(** [\s] on code points below 256. *)
Definition space : cls :=
  fun c => let n := code c in
           ((Nat.leb 9 n && Nat.leb n 13) || (Nat.leb 28 n && Nat.leb n 32)
            || Nat.eqb n 133 || Nat.eqb n 160)%bool.

(** One alternative of a group: a sequence of character classes. *)
Fixpoint match_alt (a : list cls) (s : string) : option (string * string) :=
  match a with
  | [] => Some (EmptyString, s)
  | p :: a' =>
      match s with
      | EmptyString => None
      | String c r =>
          if p c then
            match match_alt a' r with
            | Some (m, rest) => Some (String c m, rest)
            | None => None
            end
          else None
      end
  end.

(** A group: the first alternative whose match lets the rest of the
    expression, the continuation [k], succeed. *)
Fixpoint group {A : Type} (alts : list (list cls)) (s : string)
         (k : string -> string -> option A) : option A :=
  match alts with
  | [] => None
  | a :: alts' =>
      match match_alt a s with
      | Some (m, rest) =>
          match k m rest with
          | Some x => Some x
          | None => group alts' s k
          end
      | None => group alts' s k
      end
  end.

Definition lit {A : Type} (a : ascii) (s : string)
           (k : string -> option A) : option A :=
  match s with
  | String c r => if Ascii.eqb c a then k r else None
  | EmptyString => None
  end.

(** Greedy [\s*] and [\s+]: the longest run first, then shorter ones. *)
Fixpoint spaces_star {A : Type} (s : string) (k : string -> option A)
  : option A :=
  match s with
  | String c r =>
      if space c then
        match spaces_star r k with
        | Some x => Some x
        | None => k s
        end
      else k s
  | EmptyString => k s
  end.

Definition spaces_plus {A : Type} (s : string) (k : string -> option A)
  : option A :=
  match s with
  | String c r => if space c then spaces_star r k else None
  | EmptyString => None
  end.

Definition re_Y : list (list cls) := [[digit; digit; digit; digit]].
Definition re_m : list (list cls) :=
  [[only "1"; between "0" "2"]; [only "0"; between "1" "9"]; [between "1" "9"]].
Definition re_d : list (list cls) :=
  [[only "3"; between "0" "1"]; [between "1" "2"; digit];
   [only "0"; between "1" "9"]; [between "1" "9"]; [only " "; between "1" "9"]].
Definition re_H : list (list cls) :=
  [[only "2"; between "0" "3"]; [between "0" "1"; digit]; [digit]].
Definition re_M : list (list cls) := [[between "0" "5"; digit]; [digit]].
Definition re_S : list (list cls) :=
  [[only "6"; between "0" "1"]; [between "0" "5"; digit]; [digit]].

(** The six groups of a match and the unconverted rest. *)
Definition regex_match (s : string)
  : option (string * string * string * string * string * string * string) :=
  group re_Y s (fun Y s1 =>
  lit "-" s1 (fun s2 =>
  group re_m s2 (fun m s3 =>
  lit "-" s3 (fun s4 =>
  group re_d s4 (fun d s5 =>
  spaces_plus s5 (fun s6 =>
  group re_H s6 (fun H s7 =>
  lit ":" s7 (fun s8 =>
  group re_M s8 (fun Mi s9 =>
  lit ":" s9 (fun s10 =>
  group re_S s10 (fun Se rest =>
  Some (Y, m, d, H, Mi, Se, rest)))))))))))).

(** [int(g)] on a matched group: digits, after an optional blank. *)
Fixpoint digits_value (acc : Z) (s : string) : Z :=
  match s with
  | EmptyString => acc
  | String c r =>
      if digit c then digits_value (10 * acc + Z.of_nat (code c - 48))%Z r
      else digits_value acc r
  end.

Definition to_int (s : string) : Z := digits_value 0%Z s.

Definition is_leap (y : Z) : bool :=
  ((y mod 4 =? 0) && (negb (y mod 100 =? 0) || (y mod 400 =? 0)))%bool%Z.

Definition days_in_month (y m : Z) : Z :=
  (if m =? 2 then (if is_leap y then 29 else 28)
   else if (m =? 4) || (m =? 6) || (m =? 9) || (m =? 11) then 30
   else 31)%Z.

(** The checks of the [date] and [datetime] constructors. *)
Definition valid_fields (y m d H Mi Se : Z) : bool :=
  ((1 <=? y) && (y <=? 9999) && (1 <=? m) && (m <=? 12)
   && (1 <=? d) && (d <=? days_in_month y m)
   && (0 <=? H) && (H <=? 23) && (0 <=? Mi) && (Mi <=? 59)
   && (0 <=? Se) && (Se <=? 59))%bool%Z.

Definition parse (s : string) : option datetime :=
  match regex_match s with
  | Some (Y, m, d, H, Mi, Se, rest) =>
      match rest with
      | EmptyString =>
          let y := to_int Y in let mo := to_int m in let da := to_int d in
          let h := to_int H in let mi := to_int Mi in let se := to_int Se in
          if valid_fields y mo da h mi se
          then Some (mkDatetime y mo da h mi se)
          else None
      | String _ _ => None
      end
  | None => None
  end.

End Strptime.

(** [datetime.strptime(ts, TIMESTAMP_FMT)] on a Python object. *)
Definition strptime (ts : pyval) : result datetime :=
  match ts with
  | PyStr s => match Strptime.parse s with
               | Some t => Ok t
               | None => Raise ValueError
               end
  | _ => Raise TypeError
  end.

(** ** The message, the points and the database client *)

(** What [json.loads(message.payload.decode())] makes of the bytes of the
    message: [decode] rejects them, [json.loads] rejects the text, or a
    value is returned. *)
Inductive raw_payload : Type :=
| NotUtf8
| NotJson
| Json (v : pyval).

Record MQTTMessage : Type := mkMessage {
  msg_topic : string;
  msg_payload : raw_payload
}.

Record Tags : Type := mkTags { location : string; station : string }.
Record Fields : Type := mkFields { value : float }.

(** One element of the list handed to [write_points]. *)
Record Point : Type := mkPoint {
  timestamp : datetime;
  measurement : pyval;
  tags : Tags;
  fields : Fields
}.

(** The database behind [influxdb_client], seen from the callback: the
    outcomes of the write calls to come (a call beyond the script is
    accepted) and the points stored so far. *)
Inductive write_outcome : Type := Accept | Unavailable.

Record InfluxDBClient : Type := mkClient {
  script : list write_outcome;
  stored : list Point
}.

Inductive event : Type :=
| LogWarningInvalidTopic (topic : string)
| JsonLoads
| LogInfoReceived (payload : pyval) (topic : string)
| LogWarningNoTimestamp (loc sta : string) (meas : pyval)
| LogWarningNonFloat (val : pyval) (loc sta : string) (meas : pyval)
| WritePoints (messages : list Point).

(** ** The monad of the callback: events, exceptions, the client *)

Definition M (A : Type) : Type :=
  InfluxDBClient -> result A * list event * InfluxDBClient.

Definition ret {A : Type} (a : A) : M A := fun c => (Ok a, [], c).

Definition bind {A B : Type} (m : M A) (f : A -> M B) : M B :=
  fun c =>
    match m c with
    | (Ok a, es, c') =>
        match f a c' with
        | (r, es', c'') => (r, es ++ es', c'')
        end
    | (Raise e, es, c') => (Raise e, es, c')
    end.

Definition lift {A : Type} (r : result A) : M A := fun c => (r, [], c).

Definition log (e : event) : M unit := fun c => (Ok tt, [e], c).

Notation "x <- m ;; k" := (bind m (fun x => k))
  (at level 61, m at next level, right associativity).
Notation "m ;;; k" := (bind m (fun _ => k))
  (at level 61, right associativity).

(** [for x in xs: acc = body(x, acc)]. *)
Fixpoint for_each {A B : Type} (xs : list A) (body : A -> B -> M B) (acc : B)
  : M B :=
  match xs with
  | [] => ret acc
  | x :: r => acc' <- body x acc ;; for_each r body acc'
  end.

(** [json.loads(message.payload.decode())]. *)
Definition json_loads (p : raw_payload) : M pyval :=
  log JsonLoads ;;;
  match p with
  | NotUtf8 => lift (Raise UnicodeDecodeError)
  | NotJson => lift (Raise JSONDecodeError)
  | Json v => ret v
  end.

(** [influxdb_client.write_points(messages)]: one attempt; the database
    stores the whole list or raises. *)
Definition write_points (messages : list Point) : M unit :=
  fun c =>
    match script c with
    | Unavailable :: r =>
        (Raise SinkUnavailable, [WritePoints messages], mkClient r (stored c))
    | Accept :: r =>
        (Ok tt, [WritePoints messages], mkClient r (stored c ++ messages))
    | [] =>
        (Ok tt, [WritePoints messages], mkClient [] (stored c ++ messages))
    end.

(** ** The callback *)

(** Lines 137-160: the body of the loop, for one [measurement]; the result
    is the list [messages] after the iteration. *)
Definition loop_body (loc sta : string) (payload meas : pyval)
           (messages : list Point) : M (list Point) :=
  entry <- lift (py_getitem payload meas) ;;
  has <- lift (py_contains "timestamp" entry) ;;
  if negb has then
    log (LogWarningNoTimestamp loc sta meas) ;;;
    ret messages
  else
    entry1 <- lift (py_getitem payload meas) ;;
    ts <- lift (py_getitem entry1 (PyStr "timestamp")) ;;
    entry2 <- lift (py_getitem payload meas) ;;
    got <- lift (py_get entry2 "value") ;;
    let val := py_or PyNone got in
    match val with
    | PyFloat f =>
        t <- lift (strptime ts) ;;
        ret (messages ++ [mkPoint t meas (mkTags loc sta) (mkFields f)])
    | _ =>
        log (LogWarningNonFloat val loc sta meas) ;;;
        ret messages
    end.

(** Lines 135-160: [messages = []] and the loop over [payload]. *)
Definition collect_messages (loc sta : string) (payload : pyval)
  : M (list Point) :=
  items <- lift (py_iter payload) ;;
  for_each items (loop_body loc sta payload) [].

(** Lines 132-163: what the callback does once the topic is accepted. *)
Definition process (loc sta topic : string) (p : raw_payload) : M unit :=
  payload <- json_loads p ;;
  log (LogInfoReceived payload topic) ;;;
  messages <- collect_messages loc sta payload ;;
  match messages with
  | [] => ret tt
  | _ :: _ => write_points messages
  end.

(** Lines 121-163. *)
Definition on_message (message : MQTTMessage) : M unit :=
  let topic := msg_topic message in
  if negb (Nat.eqb (List.length (py_split "/" topic)) 2) then
    log (LogWarningInvalidTopic topic)
  else
    match py_split "/" topic with
    | [loc; sta] => process loc sta topic (msg_payload message)
    | _ => lift (Raise ValueError)
    end.

(** Lines 125-130 read as a function: the identity a topic is routed to. *)
Definition route (topic : string) : option Tags :=
  if negb (Nat.eqb (List.length (py_split "/" topic)) 2) then None
  else match py_split "/" topic with
       | [loc; sta] => Some (mkTags loc sta)
       | _ => None
       end.

(** The batches handed to [write_points] in a run. *)
Fixpoint writes (es : list event) : list (list Point) :=
  match es with
  | [] => []
  | WritePoints b :: r => b :: writes r
  | _ :: r => writes r
  end.

Definition result_of {A : Type} (x : result A * list event * InfluxDBClient)
  : result A := fst (fst x).
Definition events_of {A : Type} (x : result A * list event * InfluxDBClient)
  : list event := snd (fst x).
Definition client_of {A : Type} (x : result A * list event * InfluxDBClient)
  : InfluxDBClient := snd x.

(** ** Scenario data *)

Definition new_client : InfluxDBClient := mkClient [] [].

Definition entry_of (ts : string) (v : pyval) : pyval :=
  PyDict [("timestamp", PyStr ts); ("value", v)].

Definition payload_A : pyval :=
  PyDict [("temperature", entry_of "2024-01-01 12:00:00" (PyFloat 21.5))].

Definition message_A : MQTTMessage :=
  mkMessage "greenhouse1/stationA" (Json payload_A).

Definition point_A : Point :=
  mkPoint (mkDatetime 2024 1 1 12 0 0) (PyStr "temperature")
          (mkTags "greenhouse1" "stationA") (mkFields 21.5).

(** ** Predicates on topics *)

Fixpoint no_sep (sep : ascii) (s : string) : bool :=
  match s with
  | EmptyString => true
  | String c r => negb (Ascii.eqb c sep) && no_sep sep r
  end.

(** [sep.join(l)]. *)
Fixpoint py_join (sep : ascii) (l : list string) : string :=
  match l with
  | [] => EmptyString
  | a :: r =>
      match r with
      | [] => a
      | _ :: _ => (a ++ String sep (py_join sep r))%string
      end
  end.

(** A topic of the form the specification asks for: two segments, none
    empty. *)
Definition two_nonempty_segments (topic : string) : Prop :=
  exists l s, topic = (l ++ String "/" s)%string
              /\ no_sep "/" l = true /\ no_sep "/" s = true
              /\ l <> EmptyString /\ s <> EmptyString.

(** A topic with exactly one separator. *)
Definition two_segments (topic : string) (l s : string) : Prop :=
  topic = (l ++ String "/" s)%string /\ no_sep "/" l = true /\ no_sep "/" s = true.

(** ** One iteration of the loop, as a function of the entry *)

Inductive outcome : Type :=
| Skip (ev : event)
| Emit (p : Point)
| Fail (e : exn).

(** What lines 137-160 do with the entry [payload[measurement]]. *)
Definition classify (loc sta : string) (meas entry : pyval) : outcome :=
  match py_contains "timestamp" entry with
  | Raise e => Fail e
  | Ok false => Skip (LogWarningNoTimestamp loc sta meas)
  | Ok true =>
      match py_getitem entry (PyStr "timestamp") with
      | Raise e => Fail e
      | Ok ts =>
          match py_get entry "value" with
          | Raise e => Fail e
          | Ok got =>
              match py_or PyNone got with
              | PyFloat f =>
                  match strptime ts with
                  | Ok t => Emit (mkPoint t meas (mkTags loc sta) (mkFields f))
                  | Raise e => Fail e
                  end
              | val => Skip (LogWarningNonFloat val loc sta meas)
              end
          end
      end
  end.

Definition decode_entry (loc sta : string) (payload meas : pyval) : outcome :=
  match py_getitem payload meas with
  | Raise e => Fail e
  | Ok entry => classify loc sta meas entry
  end.

(** The loop over a list of outcomes: records so far, warnings logged. *)
Fixpoint fold_outcomes (os : list outcome) (acc : list Point)
  : result (list Point) * list event :=
  match os with
  | [] => (Ok acc, [])
  | Skip ev :: r =>
      let (res, es) := fold_outcomes r acc in (res, ev :: es)
  | Emit p :: r => fold_outcomes r (acc ++ [p])
  | Fail e :: _ => (Raise e, [])
  end.

(** ** The loop as a function; the records of a message *)

(** Lines 135-160 without the client: the result of the loop and the
    warnings it logs. *)
Definition decode (loc sta : string) (payload : pyval)
  : result (list Point) * list event :=
  match py_iter payload with
  | Ok items => fold_outcomes (map (decode_entry loc sta payload) items) []
  | Raise e => (Raise e, [])
  end.

(** The records a message yields: the list [messages] when the loop ends,
    nothing when the callback returns or raises before. *)
Definition records_of (message : MQTTMessage) : list Point :=
  match route (msg_topic message) with
  | None => []
  | Some id =>
      match msg_payload message with
      | Json payload =>
          match fst (decode (location id) (station id) payload) with
          | Ok messages => messages
          | Raise _ => []
          end
      | _ => []
      end
  end.

Definition is_warning (ev : event) : bool :=
  match ev with
  | LogWarningNoTimestamp _ _ _ | LogWarningNonFloat _ _ _ _ => true
  | _ => false
  end.

Definition quiet (o : outcome) : Prop :=
  match o with Skip ev => is_warning ev = true | _ => True end.

Definition payload_no_value : pyval :=
  PyDict [("temperature", PyDict [("timestamp", PyStr "2024-01-01 12:00:00")])].

Definition failing_client : InfluxDBClient :=
  mkClient [Unavailable; Unavailable; Unavailable; Accept] [].

(** ** Predicates on entries and payloads; more scenario data *)

Definition is_float (v : pyval) : bool :=
  match v with PyFloat _ => true | _ => false end.

(** [None or entry.get('value')] for a dict entry. *)
Definition entry_value (e : list (string * pyval)) : pyval :=
  py_or PyNone (match dict_lookup "value" e with Some v => v | None => PyNone end).

Fixpoint distinct (l : list string) : bool :=
  match l with
  | [] => true
  | x :: r => negb (existsb (String.eqb x) r) && distinct r
  end.

(** An entry with a timestamp in the fixed format and a float value. *)
Definition valid_entry (v : pyval) : bool :=
  match v with
  | PyDict e =>
      match dict_lookup "timestamp" e, dict_lookup "value" e with
      | Some (PyStr ts), Some (PyFloat _) =>
          match Strptime.parse ts with Some _ => true | None => false end
      | _, _ => false
      end
  | _ => false
  end.

(** An entry that is a mapping with a timestamp, in the fixed format when
    the value is a float. *)
Definition well_timed (v : pyval) : bool :=
  match v with
  | PyDict e =>
      match dict_lookup "timestamp" e with
      | Some ts =>
          if is_float (entry_value e)
          then match strptime ts with Ok _ => true | Raise _ => false end
          else true
      | None => false
      end
  | _ => false
  end.

Definition has_float_value (kv : string * pyval) : bool :=
  match snd kv with
  | PyDict e => is_float (entry_value e)
  | _ => false
  end.

(** The record [p] is the one of the entry [kv]. *)
Definition record_of_entry (loc sta : string) (kv : string * pyval) (p : Point)
  : Prop :=
  measurement p = PyStr (fst kv)
  /\ tags p = mkTags loc sta
  /\ exists e ts,
       snd kv = PyDict e
       /\ dict_lookup "timestamp" e = Some (PyStr ts)
       /\ Strptime.parse ts = Some (timestamp p)
       /\ dict_lookup "value" e = Some (PyFloat (value (fields p))).

Definition payload_two : pyval :=
  PyDict [("temperature", entry_of "2024-01-01 12:00:00" (PyFloat 21.5));
          ("humidity", entry_of "2024-01-01 12:00:05" (PyFloat 40.25))].

Definition payload_mixed : list (string * pyval) :=
  [("temperature", entry_of "2024-01-01 12:00:00" (PyFloat 21.5));
   ("humidity", entry_of "2024-01-01 12:00:05" (PyInt 40));
   ("status", entry_of "2024-01-01 12:00:05" (PyStr "ok"));
   ("door", entry_of "not a date" (PyBool true));
   ("pressure", PyDict [("timestamp", PyStr "2024-01-01 12:00:05");
                        ("value", PyNone)])].

Definition payload_int : pyval :=
  PyDict [("temperature", entry_of "2024-01-01 12:00:00" (PyInt 21))].

Definition is_scalar (v : pyval) : bool :=
  match v with
  | PyNone | PyBool _ | PyInt _ | PyFloat _ => true
  | _ => false
  end.

Definition is_fail (o : outcome) : bool :=
  match o with Fail _ => true | _ => false end.




Definition payload_bad_timestamp : pyval :=
  PyDict [("temperature", entry_of "2024-01-01 12:00:00" (PyFloat 21.5));
          ("humidity", entry_of "01/01/2024 12:00" (PyFloat 40.25))].

(** ** Further notions on the callback *)

(** The number of separators in a topic. *)
Fixpoint count_sep (sep : ascii) (s : string) : nat :=
  match s with
  | EmptyString => 0
  | String c r => (if Ascii.eqb c sep then 1 else 0) + count_sep sep r
  end.

Definition has_timestamp (e : list (string * pyval)) : bool :=
  match dict_lookup "timestamp" e with Some _ => true | None => false end.

(** An entry that is a mapping with both a timestamp and a float value. *)
Definition complete_entry (kv : string * pyval) : bool :=
  match snd kv with
  | PyDict e => has_timestamp e && is_float (entry_value e)
  | _ => false
  end.

(** An entry that is a mapping and lacks the timestamp or the float value. *)
Definition skipped_entry (v : pyval) : bool :=
  match v with
  | PyDict e => negb (has_timestamp e && is_float (entry_value e))
  | _ => false
  end.

Definition is_object (p : raw_payload) : bool :=
  match p with Json (PyDict _) => true | _ => false end.

(** The exceptions the guards of the loop are there to exclude. *)
Definition guarded_against (e : exn) : bool :=
  match e with KeyError | AttributeError => true | _ => false end.


Definition payload_partial : list (string * pyval) :=
  [("temperature", entry_of "2024-01-01 12:00:00" (PyFloat 21.5));
   ("note", PyStr "no stamp");
   ("humidity", PyDict [("value", PyFloat 40.25)]);
   ("door", entry_of "not a date" (PyBool true))].

(** An entry on which the body of the loop raises: anything that is not a
    container; a string or a list in which "timestamp" is found; a mapping
    with a float value whose timestamp is not a string in the fixed
    format. *)
Definition poisonous (v : pyval) : bool :=
  match v with
  | PyDict e =>
      match dict_lookup "timestamp" e with
      | Some ts =>
          is_float (entry_value e)
          && negb (match strptime ts with Ok _ => true | Raise _ => false end)
      | None => false
      end
  | PyList l => existsb (is_str "timestamp") l
  | PyStr s => py_str_contains "timestamp" s
  | _ => true
  end.

(** * Properties *)

(** ** The model of [strptime] on examples *)

Example strptime_ok :
  strptime (PyStr "2024-01-01 12:00:00") = Ok (mkDatetime 2024 1 1 12 0 0).
Proof. vm_compute. reflexivity. Qed.
Example strptime_short :
  strptime (PyStr "2024-1-1 1:2:3") = Ok (mkDatetime 2024 1 1 1 2 3).
Proof. vm_compute. reflexivity. Qed.
Example strptime_blank :
  strptime (PyStr "2024-01- 5  12:00:00") = Ok (mkDatetime 2024 1 5 12 0 0).
Proof. vm_compute. reflexivity. Qed.
Example strptime_month_13 :
  strptime (PyStr "2024-13-01 12:00:00") = Raise ValueError.
Proof. vm_compute. reflexivity. Qed.
Example strptime_no_leap_day :
  strptime (PyStr "2023-02-29 12:00:00") = Raise ValueError.
Proof. vm_compute. reflexivity. Qed.
Example strptime_second_60 :
  strptime (PyStr "2024-02-29 12:00:60") = Raise ValueError.
Proof. vm_compute. reflexivity. Qed.
Example strptime_no_blank :
  strptime (PyStr "2024-02-29T12:00:00") = Raise ValueError.
Proof. vm_compute. reflexivity. Qed.
Example strptime_unconverted :
  strptime (PyStr "2024-02-29 12:00:001") = Raise ValueError.
Proof. vm_compute. reflexivity. Qed.
Example strptime_leap :
  strptime (PyStr "2024-02-29 12:00:00") = Ok (mkDatetime 2024 2 29 12 0 0).
Proof. vm_compute. reflexivity. Qed.

(** ** The callback on examples *)

Example py_split_three : py_split "/" "a/b/c" = ["a"; "b"; "c"].
Proof. reflexivity. Qed.

Example py_split_empty : py_split "/" "" = [""].
Proof. reflexivity. Qed.

Example py_split_slash : py_split "/" "/" = [""; ""].
Proof. reflexivity. Qed.

(** A payload with two entries, one of them without value: one record, one
    warning. *)
Example one_entry_without_value :
  on_message
    (mkMessage "greenhouse1/stationA"
       (Json (PyDict [("temperature",
                       entry_of "2024-01-01 12:00:00" (PyFloat 21.5));
                      ("humidity",
                       PyDict [("timestamp", PyStr "2024-01-01 12:00:00")])])))
    new_client =
  (Ok tt,
   [JsonLoads;
    LogInfoReceived
      (PyDict [("temperature", entry_of "2024-01-01 12:00:00" (PyFloat 21.5));
               ("humidity",
                PyDict [("timestamp", PyStr "2024-01-01 12:00:00")])])
      "greenhouse1/stationA";
    LogWarningNonFloat PyNone "greenhouse1" "stationA" (PyStr "humidity");
    WritePoints [point_A]],
   mkClient [] [point_A]).
Proof. vm_compute. reflexivity. Qed.

(** An entry that is a string is tested for the substring, not for a key. *)
Example string_entry :
  decode "l" "s" (PyDict [("a", PyStr "no stamp"); ("b", PyStr "a timestamp")])
  = (Raise TypeError, [LogWarningNoTimestamp "l" "s" (PyStr "a")]).
Proof. vm_compute. reflexivity. Qed.

Example empty_array_payload :
  on_message (mkMessage "greenhouse1/stationA" (Json (PyList []))) new_client =
  (Ok tt, [JsonLoads; LogInfoReceived (PyList []) "greenhouse1/stationA"],
   new_client).
Proof. vm_compute. reflexivity. Qed.

(** ** Segments of a topic *)

Section Split.

Variable sep : ascii.

Lemma py_split_not_nil (s : string) : py_split sep s <> [].
Proof.
  destruct s as [|c r]; simpl; [discriminate|].
  destruct (Ascii.eqb c sep); [discriminate|].
  destruct (py_split sep r); discriminate.
Qed.

Lemma py_join_split (s : string) : py_join sep (py_split sep s) = s.
Proof.
  induction s as [|c r IH]; simpl; [reflexivity|].
  pose proof (py_split_not_nil r) as N.
  destruct (py_split sep r) as [|h t] eqn:E; [congruence|].
  destruct (Ascii.eqb_spec c sep) as [->|Hne].
  - change (py_join sep (EmptyString :: h :: t))
      with (String sep (py_join sep (h :: t))).
    rewrite IH. reflexivity.
  - rewrite <- IH. simpl. destruct t; reflexivity.
Qed.

Lemma py_split_no_sep (s : string) :
  Forall (fun x => no_sep sep x = true) (py_split sep s).
Proof.
  induction s as [|c r IH]; simpl.
  - constructor; [reflexivity|constructor].
  - destruct (Ascii.eqb c sep) eqn:E.
    + constructor; [reflexivity|exact IH].
    + destruct (py_split sep r) as [|h t]; simpl.
      * constructor; [simpl; rewrite E; reflexivity|constructor].
      * inversion IH as [|? ? Hh Ht]; subst.
        constructor; [simpl; rewrite E, Hh; reflexivity|exact Ht].
Qed.

Lemma py_split_whole (a : string) :
  no_sep sep a = true -> py_split sep a = [a].
Proof.
  induction a as [|c r IH]; simpl; [reflexivity|].
  destruct (Ascii.eqb c sep); simpl; [discriminate|].
  intros H. rewrite (IH H). reflexivity.
Qed.

Lemma py_split_app (a b : string) :
  no_sep sep a = true ->
  py_split sep (a ++ String sep b)%string = a :: py_split sep b.
Proof.
  induction a as [|c r IH]; simpl.
  - intros _. rewrite Ascii.eqb_refl. reflexivity.
  - destruct (Ascii.eqb c sep); simpl; [discriminate|].
    intros H. rewrite (IH H). reflexivity.
Qed.

Lemma py_split_two (topic l s : string) :
  py_split sep topic = [l; s] <->
  (topic = (l ++ String sep s)%string /\ no_sep sep l = true /\ no_sep sep s = true).
Proof.
  split.
  - intros H.
    pose proof (py_join_split topic) as J.
    pose proof (py_split_no_sep topic) as F.
    rewrite H in J, F. simpl in J.
    inversion F as [|? ? Hl F']; subst. inversion F' as [|? ? Hs _]; subst.
    auto.
  - intros (-> & Hl & Hs).
    rewrite (py_split_app _ _ Hl), (py_split_whole _ Hs). reflexivity.
Qed.

End Split.

Lemma route_two_segments (topic l s : string) :
  route topic = Some (mkTags l s) <-> two_segments topic l s.
Proof.
  unfold route, two_segments. rewrite <- py_split_two.
  destruct (py_split "/" topic) as [|a [|b [|c r]]]; simpl;
    split; intros H; try discriminate; congruence.
Qed.

Lemma route_none (topic : string) :
  route topic = None <-> List.length (py_split "/" topic) <> 2.
Proof.
  unfold route.
  destruct (py_split "/" topic) as [|a [|b [|c r]]]; simpl;
    split; intros H; try discriminate; try congruence; auto.
Qed.

Lemma loop_body_outcome loc sta payload meas messages c :
  loop_body loc sta payload meas messages c =
  match decode_entry loc sta payload meas with
  | Skip ev => (Ok messages, [ev], c)
  | Emit p => (Ok (messages ++ [p]), [], c)
  | Fail e => (Raise e, [], c)
  end.
Proof.
  unfold loop_body, decode_entry, classify, bind, lift, log, ret.
  destruct (py_getitem payload meas) as [entry|e]; [|reflexivity].
  destruct (py_contains "timestamp" entry) as [[|]|e]; simpl; try reflexivity.
  destruct (py_getitem entry (PyStr "timestamp")) as [ts|e]; simpl;
    [|reflexivity].
  destruct (py_get entry "value") as [got|e]; simpl; [|reflexivity].
  destruct (py_or PyNone got); simpl; try reflexivity.
  destruct (strptime ts); reflexivity.
Qed.

Lemma for_each_outcomes loc sta payload xs acc c :
  for_each xs (loop_body loc sta payload) acc c =
  (fold_outcomes (map (decode_entry loc sta payload) xs) acc, c).
Proof.
  revert acc. induction xs as [|x r IH]; intros acc; simpl; [reflexivity|].
  unfold bind. rewrite loop_body_outcome.
  destruct (decode_entry loc sta payload x); simpl.
  - rewrite IH. destruct (fold_outcomes _ acc). reflexivity.
  - rewrite IH. destruct (fold_outcomes _ (acc ++ [p])). reflexivity.
  - reflexivity.
Qed.

Lemma collect_messages_outcomes loc sta payload c :
  collect_messages loc sta payload c =
  match py_iter payload with
  | Ok items =>
      (fold_outcomes (map (decode_entry loc sta payload) items) [], c)
  | Raise e => (Raise e, [], c)
  end.
Proof.
  unfold collect_messages, bind, lift.
  destruct (py_iter payload) as [items|e]; [|reflexivity].
  rewrite for_each_outcomes.
  destruct (fold_outcomes _ []). reflexivity.
Qed.

(** ** Dictionaries with distinct keys *)

Lemma dict_lookup_in k v d :
  NoDup (dict_keys d) -> In (k, v) d -> dict_lookup k d = Some v.
Proof.
  induction d as [|[k' v'] r IH]; simpl; intros N H; [contradiction|].
  inversion N as [|? ? Hnotin N']; subst.
  destruct H as [H|H].
  - inversion H; subst. rewrite String.eqb_refl. reflexivity.
  - destruct (String.eqb_spec k' k) as [->|Hne].
    + exfalso. apply Hnotin. change k with (fst (k, v)).
      apply in_map. exact H.
    + apply IH; assumption.
Qed.

Lemma outcomes_dict loc sta d :
  NoDup (dict_keys d) ->
  map (decode_entry loc sta (PyDict d)) (map PyStr (dict_keys d)) =
  map (fun kv => classify loc sta (PyStr (fst kv)) (snd kv)) d.
Proof.
  intros N. unfold dict_keys. rewrite !map_map.
  apply map_ext_in. intros [k v] H. simpl.
  unfold decode_entry. simpl.
  rewrite (dict_lookup_in _ _ _ N H). reflexivity.
Qed.

Lemma collect_messages_dict loc sta d c :
  NoDup (dict_keys d) ->
  collect_messages loc sta (PyDict d) c =
  (fold_outcomes
     (map (fun kv => classify loc sta (PyStr (fst kv)) (snd kv)) d) [], c).
Proof.
  intros N. rewrite collect_messages_outcomes. simpl.
  rewrite (outcomes_dict _ _ _ N). reflexivity.
Qed.

Lemma collect_messages_decode loc sta payload c :
  collect_messages loc sta payload c = (decode loc sta payload, c).
Proof.
  rewrite collect_messages_outcomes. unfold decode.
  destruct (py_iter payload); reflexivity.
Qed.

Lemma classify_quiet loc sta meas entry : quiet (classify loc sta meas entry).
Proof.
  unfold classify.
  destruct (py_contains "timestamp" entry) as [[|]|e]; simpl; auto.
  destruct (py_getitem entry (PyStr "timestamp")); simpl; auto.
  destruct (py_get entry "value") as [got|]; simpl; auto.
  destruct (py_or PyNone got); simpl; auto.
  match goal with |- context [strptime ?t] => destruct (strptime t) end;
    simpl; auto.
Qed.

Lemma decode_entry_quiet loc sta payload meas :
  quiet (decode_entry loc sta payload meas).
Proof.
  unfold decode_entry. destruct (py_getitem payload meas); simpl; auto.
  apply classify_quiet.
Qed.

Lemma fold_outcomes_warnings os acc :
  Forall quiet os ->
  forallb is_warning (snd (fold_outcomes os acc)) = true.
Proof.
  intros H. revert acc.
  induction H as [|o r Ho _ IH]; intros acc; simpl; [reflexivity|].
  destruct o; simpl in *.
  - specialize (IH acc). destruct (fold_outcomes r acc). simpl in *.
    rewrite Ho, IH. reflexivity.
  - apply IH.
  - reflexivity.
Qed.

Lemma decode_warnings loc sta payload :
  forallb is_warning (snd (decode loc sta payload)) = true.
Proof.
  unfold decode. destruct (py_iter payload) as [items|e]; [|reflexivity].
  apply fold_outcomes_warnings.
  apply Forall_forall. intros o H. apply in_map_iff in H.
  destruct H as (x & <- & _). apply decode_entry_quiet.
Qed.

Lemma writes_app es1 es2 : writes (es1 ++ es2) = writes es1 ++ writes es2.
Proof.
  induction es1 as [|e r IH]; simpl; [reflexivity|].
  destruct e; simpl; rewrite ?IH; reflexivity.
Qed.

Lemma warnings_no_write es :
  forallb is_warning es = true -> writes es = [] /\ ~ In JsonLoads es.
Proof.
  induction es as [|e r IH]; simpl; [auto|].
  intros H. apply andb_true_iff in H. destruct H as [He Hr].
  destruct (IH Hr) as [W J].
  destruct e; simpl in He; try discriminate; split; auto;
    intros [X|X]; try discriminate; auto.
Qed.

Lemma decode_no_write loc sta payload :
  writes (snd (decode loc sta payload)) = [].
Proof. apply warnings_no_write, decode_warnings. Qed.

Lemma process_json loc sta topic payload c :
  process loc sta topic (Json payload) c =
  match decode loc sta payload with
  | (Ok [], es) =>
      (Ok tt, JsonLoads :: LogInfoReceived payload topic :: es, c)
  | (Ok (m :: ms), es) =>
      match write_points (m :: ms) c with
      | (r, ew, c') =>
          (r, JsonLoads :: LogInfoReceived payload topic :: es ++ ew, c')
      end
  | (Raise e, es) =>
      (Raise e, JsonLoads :: LogInfoReceived payload topic :: es, c)
  end.
Proof.
  unfold process, json_loads, bind, log, ret. simpl.
  rewrite collect_messages_decode.
  destruct (decode loc sta payload) as [[[|m ms]|e] es]; simpl.
  - rewrite app_nil_r. reflexivity.
  - destruct (write_points (m :: ms) c) as [[r ew] c']. reflexivity.
  - reflexivity.
Qed.

Lemma on_message_invalid topic p c :
  route topic = None ->
  on_message (mkMessage topic p) c = (Ok tt, [LogWarningInvalidTopic topic], c).
Proof.
  unfold route, on_message. simpl.
  destruct (py_split "/" topic) as [|a [|b [|x r]]]; simpl;
    intros H; try discriminate; reflexivity.
Qed.

Lemma on_message_valid topic loc sta p c :
  route topic = Some (mkTags loc sta) ->
  on_message (mkMessage topic p) c = process loc sta topic p c.
Proof.
  unfold route, on_message. simpl.
  destruct (py_split "/" topic) as [|a [|b [|x r]]]; simpl;
    intros H; try discriminate. inversion H; subst. reflexivity.
Qed.

(** ** Routing *)

(** C1, as amended: a topic is routed to [location]/[station] exactly when
    it splits on "/" into exactly two segments, which may be empty; the
    callback then goes on with these two; for any other topic it logs one
    warning and returns, and the message yields no record. *)
Theorem C1_route_two_segments (topic : string) :
  (forall l s, route topic = Some (mkTags l s) <-> two_segments topic l s)
  /\ match route topic with
     | Some id =>
         forall p c,
           on_message (mkMessage topic p) c =
           process (location id) (station id) topic p c
     | None =>
         forall p c,
           on_message (mkMessage topic p) c =
           (Ok tt, [LogWarningInvalidTopic topic], c)
           /\ records_of (mkMessage topic p) = []
     end.
Proof.
  split.
  - intros l s. apply route_two_segments.
  - destruct (route topic) as [[l s]|] eqn:R.
    + intros p c. simpl. apply on_message_valid. exact R.
    + intros p c. split.
      * apply on_message_invalid. exact R.
      * unfold records_of. simpl. rewrite R. reflexivity.
Qed.

(** C1, as stated, fails: the topic "/stationA" has an empty first segment
    and is routed all the same, and its record is written with the empty
    location. *)
Lemma C1_empty_segment_is_routed :
  ~ two_nonempty_segments "/stationA"
  /\ route "/stationA" = Some (mkTags "" "stationA")
  /\ on_message (mkMessage "/stationA" (Json payload_A)) new_client =
     (Ok tt,
      [JsonLoads; LogInfoReceived payload_A "/stationA";
       WritePoints [mkPoint (mkDatetime 2024 1 1 12 0 0) (PyStr "temperature")
                            (mkTags "" "stationA") (mkFields 21.5)]],
      mkClient [] [mkPoint (mkDatetime 2024 1 1 12 0 0) (PyStr "temperature")
                           (mkTags "" "stationA") (mkFields 21.5)]).
Proof.
  split; [|split; vm_compute; reflexivity].
  intros (l & s & E & Hl & Hs & Nl & Ns).
  assert (R : route "/stationA" = Some (mkTags l s)).
  { apply route_two_segments. split; [exact E|split; assumption]. }
  vm_compute in R. inversion R; subst. apply Nl. reflexivity.
Qed.

(** C10: on a topic that does not split into exactly two segments the
    callback logs the warning and returns, whatever the payload: it does not
    call [json.loads], raises nothing and writes nothing. *)
Theorem C10_invalid_topic_skips_payload (message : MQTTMessage)
        (c : InfluxDBClient) :
  List.length (py_split "/" (msg_topic message)) <> 2 ->
  on_message message c =
    (Ok tt, [LogWarningInvalidTopic (msg_topic message)], c)
  /\ ~ In JsonLoads (events_of (on_message message c))
  /\ writes (events_of (on_message message c)) = [].
Proof.
  intros H. apply route_none in H. destruct message as [topic p]. simpl in *.
  rewrite (on_message_invalid topic p c H). simpl.
  split; [reflexivity|split; [|reflexivity]].
  intros [X|[]]. discriminate.
Qed.

Lemma C10_witness :
  on_message (mkMessage "badtopic" NotJson) new_client =
    (Ok tt, [LogWarningInvalidTopic "badtopic"], new_client)
  /\ ~ In JsonLoads
       (events_of (on_message (mkMessage "badtopic" NotJson) new_client))
  /\ writes (events_of (on_message (mkMessage "badtopic" NotJson) new_client))
     = [].
Proof.
  apply (C10_invalid_topic_skips_payload
           (mkMessage "badtopic" NotJson) new_client).
  vm_compute. discriminate.
Defined.

(** ** Scenario A *)

(** C7: the message of scenario A yields exactly one record, with tags
    greenhouse1/stationA, measurement temperature, value 21.5 and the
    timestamp 2024-01-01 12:00:00 read in the fixed format; that record is
    what the callback hands to [write_points]. *)
Theorem C7_scenario_A (c : InfluxDBClient) :
  collect_messages "greenhouse1" "stationA" payload_A c = (Ok [point_A], [], c)
  /\ strptime (PyStr "2024-01-01 12:00:00") = Ok (timestamp point_A)
  /\ records_of message_A = [point_A]
  /\ events_of (on_message message_A c) =
     [JsonLoads; LogInfoReceived payload_A "greenhouse1/stationA";
      WritePoints [point_A]]
  /\ on_message message_A new_client =
     (Ok tt,
      [JsonLoads; LogInfoReceived payload_A "greenhouse1/stationA";
       WritePoints [point_A]],
      mkClient [] [point_A]).
Proof.
  split; [|split; [|split; [|split]]]; try (vm_compute; reflexivity).
  destruct c as [[|[|] r] st]; vm_compute; reflexivity.
Qed.

(** ** The single call of the sink *)

Lemma write_points_events b c :
  events_of (write_points b c) = [WritePoints b].
Proof.
  unfold write_points. destruct (script c) as [|[|] r]; reflexivity.
Qed.

(** A run of the callback either writes nothing and leaves the client as it
    was, or ends with one call of [write_points] on the records of the
    message. *)
Lemma on_message_run (message : MQTTMessage) (c : InfluxDBClient) :
  (records_of message = []
   /\ writes (events_of (on_message message c)) = []
   /\ client_of (on_message message c) = c)
  \/ (records_of message <> []
      /\ exists es,
          writes es = []
          /\ on_message message c =
             (result_of (write_points (records_of message) c),
              es ++ [WritePoints (records_of message)],
              client_of (write_points (records_of message) c))).
Proof.
  destruct message as [topic p]. unfold records_of. simpl.
  destruct (route topic) as [[loc sta]|] eqn:R.
  - rewrite (on_message_valid topic loc sta p c R). simpl.
    destruct p as [| |payload]; [left; auto|left; auto|].
    rewrite process_json.
    pose proof (decode_no_write loc sta payload) as W.
    destruct (decode loc sta payload) as [[[|m ms]|e] es]; simpl in *.
    + left. auto.
    + right. split; [discriminate|].
      exists (JsonLoads :: LogInfoReceived payload topic :: es).
      split; [simpl; exact W|].
      pose proof (write_points_events (m :: ms) c) as E.
      destruct (write_points (m :: ms) c) as [[r ew] c'].
      unfold events_of, result_of, client_of in *. simpl in *.
      subst ew. reflexivity.
    + left. auto.
  - rewrite (on_message_invalid topic p c R). left. auto.
Qed.

(** C8: a message that yields no record makes no call of [write_points],
    and the client is left as it was. *)
Theorem C8_empty_batch_no_write (message : MQTTMessage) (c : InfluxDBClient) :
  records_of message = [] ->
  writes (events_of (on_message message c)) = []
  /\ client_of (on_message message c) = c.
Proof.
  intros H. destruct (on_message_run message c) as [(_ & W & C)|(N & _)].
  - split; assumption.
  - contradiction.
Qed.

Lemma C8_witness :
  writes (events_of
            (on_message (mkMessage "greenhouse1/stationA" (Json payload_no_value))
                        new_client)) = []
  /\ client_of
       (on_message (mkMessage "greenhouse1/stationA" (Json payload_no_value))
                   new_client) = new_client.
Proof.
  apply (C8_empty_batch_no_write
           (mkMessage "greenhouse1/stationA" (Json payload_no_value))
           new_client).
  vm_compute. reflexivity.
Defined.

(** C6, as amended: a message that yields records makes exactly one call of
    [write_points], on all of them; when the database is unavailable the
    call is not repeated: the exception leaves the callback, nothing is
    stored and the outcomes scripted for later calls are untouched; when the
    database accepts, the records are stored once. *)
Theorem C6_single_write_attempt (message : MQTTMessage) (c : InfluxDBClient) :
  records_of message <> [] ->
  writes (events_of (on_message message c)) = [records_of message]
  /\ match script c with
     | Unavailable :: r =>
         result_of (on_message message c) = Raise SinkUnavailable
         /\ client_of (on_message message c) = mkClient r (stored c)
     | Accept :: r =>
         result_of (on_message message c) = Ok tt
         /\ client_of (on_message message c) =
            mkClient r (stored c ++ records_of message)
     | [] =>
         result_of (on_message message c) = Ok tt
         /\ client_of (on_message message c) =
            mkClient [] (stored c ++ records_of message)
     end.
Proof.
  intros H. destruct (on_message_run message c) as [(E & _)|(_ & es & W & R)].
  - contradiction.
  - rewrite R. unfold events_of, result_of, client_of. simpl.
    rewrite writes_app, W. simpl. split; [reflexivity|].
    unfold write_points. destruct (script c) as [|[|] r]; simpl; auto.
Qed.

Lemma C6_witness :
  writes (events_of (on_message message_A failing_client)) = [[point_A]]
  /\ result_of (on_message message_A failing_client) = Raise SinkUnavailable
  /\ client_of (on_message message_A failing_client) =
     mkClient [Unavailable; Unavailable; Accept] [].
Proof.
  apply (C6_single_write_attempt message_A failing_client).
  vm_compute. discriminate.
Defined.

(** C6, as stated, fails: with a database that is unavailable three times
    and then accepts, the callback makes one call, not four; the exception
    leaves it and the record is not stored. *)
Lemma C6_no_retry :
  on_message message_A failing_client =
  (Raise SinkUnavailable,
   [JsonLoads; LogInfoReceived payload_A "greenhouse1/stationA";
    WritePoints [point_A]],
   mkClient [Unavailable; Unavailable; Accept] [])
  /\ List.length (writes (events_of (on_message message_A failing_client))) = 1
  /\ stored (client_of (on_message message_A failing_client)) = [].
Proof. repeat split; vm_compute; reflexivity. Qed.

Lemma distinct_NoDup (l : list string) : distinct l = true -> NoDup l.
Proof.
  induction l as [|x r IH]; simpl; intros H; [constructor|].
  apply andb_true_iff in H. destruct H as [Hx Hr].
  constructor; [|apply IH; exact Hr].
  intros Hin. apply negb_true_iff in Hx.
  assert (E : existsb (String.eqb x) r = true).
  { apply existsb_exists. exists x. split; [exact Hin|apply String.eqb_refl]. }
  congruence.
Qed.

Lemma entry_value_get e :
  entry_value e =
  match dict_lookup "value" e with Some v => v | None => PyNone end.
Proof. reflexivity. Qed.

Lemma classify_well_timed loc sta k v :
  well_timed v = true ->
  if has_float_value (k, v)
  then exists p, classify loc sta (PyStr k) v = Emit p
                 /\ record_of_entry loc sta (k, v) p
  else exists ev, classify loc sta (PyStr k) v = Skip ev.
Proof.
  unfold well_timed, has_float_value, classify. simpl.
  destruct v as [| | | | |l|e]; try discriminate.
  simpl. destruct (dict_lookup "timestamp" e) as [ts|] eqn:T; [|discriminate].
  rewrite entry_value_get.
  destruct (dict_lookup "value" e) as [got|] eqn:V; simpl.
  - unfold py_or. simpl.
    destruct got; simpl; intros H; try (eexists; reflexivity).
    destruct ts as [| | | |s| |]; simpl in *; try discriminate.
    destruct (Strptime.parse s) as [t|] eqn:P; [|discriminate].
    eexists. split; [reflexivity|].
    split; [reflexivity|split; [reflexivity|]].
    exists e, s. simpl. auto.
  - intros _. eexists. reflexivity.
Qed.

(** An entry that is a mapping without timestamp is skipped with the
    warning of line 138, whatever else it holds. *)
Lemma classify_no_timestamp loc sta meas e :
  dict_lookup "timestamp" e = None ->
  classify loc sta meas (PyDict e) = Skip (LogWarningNoTimestamp loc sta meas).
Proof. intros H. unfold classify. simpl. rewrite H. reflexivity. Qed.

Lemma fold_outcomes_filter (R : string * pyval -> Point -> Prop)
      (f : string * pyval -> outcome) (sel : string * pyval -> bool)
      (l : list (string * pyval)) :
  (forall kv, In kv l ->
              if sel kv then exists p, f kv = Emit p /\ R kv p
              else exists ev, f kv = Skip ev) ->
  forall acc, exists ms es,
      fold_outcomes (map f l) acc = (Ok (acc ++ ms), es)
      /\ Forall2 R (filter sel l) ms
      /\ List.length es = List.length (filter (fun kv => negb (sel kv)) l).
Proof.
  induction l as [|kv r IH]; intros H acc; simpl.
  - exists [], []. rewrite app_nil_r. auto.
  - assert (Hr : forall kv0, In kv0 r ->
                   if sel kv0 then exists p, f kv0 = Emit p /\ R kv0 p
                   else exists ev, f kv0 = Skip ev).
    { intros kv0 Hin. apply H. right. exact Hin. }
    specialize (H kv (or_introl eq_refl)).
    destruct (sel kv) eqn:S; simpl.
    + destruct H as (p & -> & Rp).
      destruct (IH Hr (acc ++ [p])) as (ms & es & E & F & L).
      exists (p :: ms), es. rewrite E, <- app_assoc. simpl. auto.
    + destruct H as (ev & ->).
      destruct (IH Hr acc) as (ms & es & E & F & L).
      exists ms, (ev :: es). rewrite E. simpl. auto.
Qed.

Lemma forallb_snd_in (f : pyval -> bool) (d : list (string * pyval)) k v :
  forallb f (map snd d) = true -> In (k, v) d -> f v = true.
Proof.
  intros H Hin. rewrite forallb_forall in H. apply H.
  change v with (snd (k, v)). apply in_map. exact Hin.
Qed.

Lemma valid_entry_well_timed k v :
  valid_entry v = true -> well_timed v = true /\ has_float_value (k, v) = true.
Proof.
  unfold valid_entry, well_timed, has_float_value. simpl.
  destruct v as [| | | | |l|e]; try discriminate.
  destruct (dict_lookup "timestamp" e) as [[| | | |s| |]|] eqn:T;
    try discriminate.
  rewrite entry_value_get.
  destruct (dict_lookup "value" e) as [[| | |f| | |]|] eqn:V; try discriminate.
  simpl. destruct (Strptime.parse s); [auto|discriminate].
Qed.

(** ** Decoding *)

(** C5: when every entry of the payload has a timestamp in the fixed format
    and a float value, the loop ends with exactly one record per entry, in
    the order of the entries, and logs no warning. *)
Theorem C5_one_record_per_valid_entry (loc sta : string)
        (d : list (string * pyval)) (c : InfluxDBClient) :
  distinct (dict_keys d) = true ->
  forallb valid_entry (map snd d) = true ->
  exists ms,
    collect_messages loc sta (PyDict d) c = (Ok ms, [], c)
    /\ List.length ms = List.length d
    /\ Forall2 (record_of_entry loc sta) d ms.
Proof.
  intros N V. rewrite (collect_messages_dict _ _ _ _ (distinct_NoDup _ N)).
  destruct (fold_outcomes_filter (record_of_entry loc sta)
              (fun kv => classify loc sta (PyStr (fst kv)) (snd kv))
              has_float_value d) with (acc := @nil Point)
    as (ms & es & E & F & L).
  - intros [k v] Hin. apply classify_well_timed.
    apply (valid_entry_well_timed k), (forallb_snd_in _ _ _ _ V Hin).
  - assert (A : forall l : list (string * pyval),
               (forall k v, In (k, v) l -> has_float_value (k, v) = true) ->
               filter has_float_value l = l
               /\ filter (fun kv => negb (has_float_value kv)) l = []).
    { induction l as [|[k v] r IH]; intros Hl; [auto|]. simpl.
      rewrite (Hl k v (or_introl eq_refl)). simpl.
      destruct IH as [I1 I2]; [intros; apply Hl; right; assumption|].
      rewrite I1, I2. auto. }
    destruct (A d) as [A1 A2].
    { intros k v Hin.
      apply (valid_entry_well_timed k), (forallb_snd_in _ _ _ _ V Hin). }
    rewrite A1 in F. rewrite A2 in L. simpl in *.
    destruct es; [|discriminate].
    exists ms. rewrite E. split; [reflexivity|].
    split; [symmetry; apply (Forall2_length F)|exact F].
Qed.

Lemma C5_witness :
  exists ms,
    collect_messages "greenhouse1" "stationA" payload_two new_client
    = (Ok ms, [], new_client)
    /\ List.length ms = 2
    /\ Forall2 (record_of_entry "greenhouse1" "stationA")
               [("temperature", entry_of "2024-01-01 12:00:00" (PyFloat 21.5));
                ("humidity", entry_of "2024-01-01 12:00:05" (PyFloat 40.25))]
               ms.
Proof.
  apply (C5_one_record_per_valid_entry "greenhouse1" "stationA"
           [("temperature", entry_of "2024-01-01 12:00:00" (PyFloat 21.5));
            ("humidity", entry_of "2024-01-01 12:00:05" (PyFloat 40.25))]
           new_client).
  - vm_compute. reflexivity.
  - vm_compute. reflexivity.
Defined.

(** C4, as amended: in a payload whose entries are mappings with a
    timestamp (in the fixed format wherever the value is a float), the loop
    succeeds, and its records are, in order, those of the entries whose
    value is a float; every other entry (value absent, null, a boolean, a
    string, an integer, a list or a mapping) is left out with one warning. *)
Theorem C4_record_iff_float_value (loc sta : string)
        (d : list (string * pyval)) (c : InfluxDBClient) :
  distinct (dict_keys d) = true ->
  forallb well_timed (map snd d) = true ->
  exists ms es,
    collect_messages loc sta (PyDict d) c = (Ok ms, es, c)
    /\ Forall2 (record_of_entry loc sta) (filter has_float_value d) ms
    /\ List.length es =
       List.length (filter (fun kv => negb (has_float_value kv)) d)
    /\ forallb is_warning es = true.
Proof.
  intros N V. rewrite (collect_messages_dict _ _ _ _ (distinct_NoDup _ N)).
  destruct (fold_outcomes_filter (record_of_entry loc sta)
              (fun kv => classify loc sta (PyStr (fst kv)) (snd kv))
              has_float_value d) with (acc := @nil Point)
    as (ms & es & E & F & L).
  - intros [k v] Hin. apply classify_well_timed.
    apply (forallb_snd_in _ _ _ _ V Hin).
  - exists ms, es. rewrite E. simpl. repeat split; try assumption.
    replace es with
      (snd (fold_outcomes
              (map (fun kv => classify loc sta (PyStr (fst kv)) (snd kv)) d)
              [])) by (rewrite E; reflexivity).
    apply fold_outcomes_warnings.
    apply Forall_forall. intros o H. apply in_map_iff in H.
    destruct H as (kv & <- & _). apply classify_quiet.
Qed.

Lemma C4_witness :
  exists ms es,
    collect_messages "greenhouse1" "stationA" (PyDict payload_mixed) new_client
    = (Ok ms, es, new_client)
    /\ Forall2 (record_of_entry "greenhouse1" "stationA")
               (filter has_float_value payload_mixed) ms
    /\ List.length es =
       List.length (filter (fun kv => negb (has_float_value kv)) payload_mixed)
    /\ forallb is_warning es = true.
Proof.
  apply (C4_record_iff_float_value "greenhouse1" "stationA" payload_mixed
                                   new_client).
  - vm_compute. reflexivity.
  - vm_compute. reflexivity.
Defined.

(** C4, as stated, fails: an entry with a timestamp whose value is the
    integer 21, a real number, yields no record; the callback logs the
    non-float warning and writes nothing. *)
Lemma C4_integer_value_excluded :
  on_message (mkMessage "greenhouse1/stationA" (Json payload_int)) new_client =
  (Ok tt,
   [JsonLoads; LogInfoReceived payload_int "greenhouse1/stationA";
    LogWarningNonFloat (PyInt 21) "greenhouse1" "stationA" (PyStr "temperature")],
   new_client)
  /\ records_of (mkMessage "greenhouse1/stationA" (Json payload_int)) = [].
Proof. split; vm_compute; reflexivity. Qed.

(** C9: when the first entry of a JSON object is not a container (null, a
    boolean or a number, as in the payload with the single entry
    temperature: 5), the membership test on it raises [TypeError]; the
    exception leaves the callback, and the entry is not skipped. *)
Theorem C9_scalar_entry_raises (topic loc sta k : string) (v : pyval)
        (rest : list (string * pyval)) (c : InfluxDBClient) :
  route topic = Some (mkTags loc sta) ->
  is_scalar v = true ->
  py_contains "timestamp" v = Raise TypeError
  /\ on_message (mkMessage topic (Json (PyDict ((k, v) :: rest)))) c =
     (Raise TypeError,
      [JsonLoads; LogInfoReceived (PyDict ((k, v) :: rest)) topic], c).
Proof.
  intros R S.
  assert (P : py_contains "timestamp" v = Raise TypeError)
    by (destruct v; try discriminate; reflexivity).
  split; [exact P|].
  rewrite (on_message_valid _ _ _ _ _ R), process_json.
  unfold decode. simpl. unfold decode_entry at 1. simpl.
  rewrite String.eqb_refl. unfold classify. rewrite P. reflexivity.
Qed.

Lemma C9_witness :
  py_contains "timestamp" (PyInt 5) = Raise TypeError
  /\ on_message (mkMessage "greenhouse1/stationA"
                           (Json (PyDict [("temperature", PyInt 5)])))
                new_client =
     (Raise TypeError,
      [JsonLoads;
       LogInfoReceived (PyDict [("temperature", PyInt 5)]) "greenhouse1/stationA"],
      new_client).
Proof.
  apply (C9_scalar_entry_raises "greenhouse1/stationA" "greenhouse1" "stationA"
           "temperature" (PyInt 5) [] new_client).
  - vm_compute. reflexivity.
  - reflexivity.
Defined.







(** C2 on the code: an entry with a float value and a timestamp that is not
    in the fixed format is not skipped; [strptime] raises [ValueError], the
    exception leaves the callback and the valid entry before it is not
    written either. *)
Theorem C2_unparseable_timestamp_raises :
  strptime (PyStr "01/01/2024 12:00") = Raise ValueError
  /\ on_message (mkMessage "greenhouse1/stationA" (Json payload_bad_timestamp))
                new_client =
     (Raise ValueError,
      [JsonLoads; LogInfoReceived payload_bad_timestamp "greenhouse1/stationA"],
      new_client).
Proof. split; vm_compute; reflexivity. Qed.


(** * Further properties of the callback *)

(** ** Which topics are accepted *)

Lemma py_split_length (sep : ascii) (s : string) :
  List.length (py_split sep s) = S (count_sep sep s).
Proof.
  induction s as [|c r IH]; simpl; [reflexivity|].
  destruct (Ascii.eqb c sep); simpl.
  - rewrite IH. reflexivity.
  - destruct (py_split sep r) as [|h t]; simpl in *; [discriminate|exact IH].
Qed.

(** The callback drops a message with the invalid-topic warning, and does
    nothing else, exactly when the number of "/" in its topic is not one. *)
Theorem topic_rejected_iff_not_one_separator (topic : string) (p : raw_payload)
        (c : InfluxDBClient) :
  on_message (mkMessage topic p) c = (Ok tt, [LogWarningInvalidTopic topic], c)
  <-> count_sep "/" topic <> 1.
Proof.
  assert (R : route topic = None <-> count_sep "/" topic <> 1).
  { rewrite route_none, py_split_length. split; intros H E; apply H; lia. }
  split.
  - intros H. apply R.
    destruct (route topic) as [[l s]|] eqn:Q; [|reflexivity].
    rewrite (on_message_valid _ _ _ _ _ Q) in H.
    destruct p as [| |v]; try discriminate.
    rewrite process_json in H.
    destruct (decode l s v) as [[[|m ms]|e] es]; try discriminate.
    destruct (write_points (m :: ms) c) as [[r ew] c']. discriminate.
  - intros H. apply on_message_invalid, R, H.
Qed.

(** ** What is written *)

Lemma classify_emit loc sta meas entry p :
  classify loc sta meas entry = Emit p ->
  tags p = mkTags loc sta /\ measurement p = meas.
Proof.
  unfold classify.
  destruct (py_contains "timestamp" entry) as [[|]|]; try discriminate.
  destruct (py_getitem entry (PyStr "timestamp")) as [ts|]; try discriminate.
  destruct (py_get entry "value") as [got|]; try discriminate.
  destruct (py_or PyNone got); try discriminate.
  destruct (strptime ts); try discriminate.
  intros H. inversion H; subst. auto.
Qed.

Lemma fold_outcomes_forall (P : Point -> Prop) os :
  (forall p, In (Emit p) os -> P p) ->
  forall acc ms es,
    Forall P acc -> fold_outcomes os acc = (Ok ms, es) -> Forall P ms.
Proof.
  induction os as [|o r IH]; intros H acc ms es A E; simpl in E.
  - inversion E; subst. exact A.
  - destruct o.
    + destruct (fold_outcomes r acc) as [res es'] eqn:F.
      inversion E; subst.
      apply (IH (fun p Hp => H p (or_intror Hp)) acc ms es' A F).
    + apply (IH (fun q Hq => H q (or_intror Hq)) (acc ++ [p]) ms es);
        [|exact E].
      apply Forall_app. split; [exact A|].
      constructor; [apply H; left; reflexivity|constructor].
    + discriminate.
Qed.

Lemma decode_tags loc sta payload ms es :
  decode loc sta payload = (Ok ms, es) ->
  Forall (fun p => tags p = mkTags loc sta) ms.
Proof.
  unfold decode. destruct (py_iter payload) as [items|]; [|discriminate].
  apply fold_outcomes_forall; [|constructor].
  intros p H. apply in_map_iff in H. destruct H as (x & E & _).
  unfold decode_entry in E.
  destruct (py_getitem payload x); [|discriminate].
  apply (classify_emit _ _ _ _ _ E).
Qed.

Lemma records_of_tags message p :
  In p (records_of message) -> route (msg_topic message) = Some (tags p).
Proof.
  unfold records_of. destruct message as [topic pl]. simpl.
  destruct (route topic) as [[l s]|]; [|contradiction].
  destruct pl as [| |v]; try contradiction. simpl.
  destruct (decode l s v) as [[ms|e] es] eqn:D; simpl; [|contradiction].
  intros H. pose proof (decode_tags _ _ _ _ _ D) as F.
  rewrite Forall_forall in F. rewrite (F p H). reflexivity.
Qed.

(** Whatever the payload, a list handed to [write_points] is the list of
    the records of the message, it is not empty, and each of its points is
    tagged with the location and the station of the topic. *)
Theorem written_points_carry_topic (message : MQTTMessage)
        (c : InfluxDBClient) (b : list Point) :
  In b (writes (events_of (on_message message c))) ->
  b = records_of message
  /\ b <> []
  /\ forall p, In p b -> route (msg_topic message) = Some (tags p).
Proof.
  intros H.
  destruct (on_message_run message c) as [(_ & W & _)|(N & es & W & R)].
  - rewrite W in H. contradiction.
  - rewrite R in H. unfold events_of in H. simpl in H.
    rewrite writes_app, W in H. simpl in H. destruct H as [<-|[]].
    split; [reflexivity|split; [exact N|]].
    intros p. apply records_of_tags.
Qed.

Lemma written_points_carry_topic_witness :
  [point_A] = records_of message_A
  /\ [point_A] <> []
  /\ forall p, In p [point_A] ->
               route (msg_topic message_A) = Some (tags p).
Proof.
  apply (written_points_carry_topic message_A new_client [point_A]).
  vm_compute. left. reflexivity.
Defined.

(** ** The loop on any JSON object *)

Lemma classify_emit_complete loc sta k v p :
  classify loc sta (PyStr k) v = Emit p ->
  complete_entry (k, v) = true /\ record_of_entry loc sta (k, v) p.
Proof.
  unfold classify, complete_entry, has_timestamp. simpl.
  destruct v as [| | | |s|l|e]; simpl; try discriminate.
  - destruct (py_str_contains "timestamp" s); discriminate.
  - destruct (existsb (is_str "timestamp") l); discriminate.
  - destruct (dict_lookup "timestamp" e) as [ts|] eqn:T; [|discriminate].
    rewrite entry_value_get.
    destruct (dict_lookup "value" e) as [got|] eqn:V; [|discriminate].
    unfold py_or. simpl.
    destruct got; try discriminate.
    destruct ts as [| | | |s| |]; simpl; try discriminate.
    destruct (Strptime.parse s) as [t|] eqn:P; [|discriminate].
    intros H. inversion H; subst. simpl.
    split; [reflexivity|].
    split; [reflexivity|split; [reflexivity|]].
    exists e, s. auto.
Qed.

Lemma classify_skip_incomplete loc sta k v ev :
  classify loc sta (PyStr k) v = Skip ev -> complete_entry (k, v) = false.
Proof.
  unfold classify, complete_entry, has_timestamp. simpl.
  destruct v as [| | | |s|l|e]; simpl; try reflexivity.
  destruct (dict_lookup "timestamp" e) as [ts|] eqn:T; [|reflexivity].
  rewrite entry_value_get.
  destruct (dict_lookup "value" e) as [got|] eqn:V; [|reflexivity].
  unfold py_or. simpl.
  destruct got; try reflexivity.
  destruct (strptime ts); discriminate.
Qed.

Lemma fold_outcomes_ok_inv (R : string * pyval -> Point -> Prop)
      (f : string * pyval -> outcome) (sel : string * pyval -> bool)
      (l : list (string * pyval)) :
  (forall kv p, f kv = Emit p -> sel kv = true /\ R kv p) ->
  (forall kv ev, f kv = Skip ev -> sel kv = false) ->
  forall acc ms es,
    fold_outcomes (map f l) acc = (Ok ms, es) ->
    exists ms', ms = acc ++ ms' /\ Forall2 R (filter sel l) ms'.
Proof.
  intros He Hs. induction l as [|kv r IH]; intros acc ms es E; simpl in E.
  - inversion E; subst. exists []. rewrite app_nil_r. simpl. auto.
  - destruct (f kv) as [ev|p|e] eqn:F.
    + destruct (fold_outcomes (map f r) acc) as [res es'] eqn:G.
      inversion E; subst.
      destruct (IH _ _ _ G) as (ms' & -> & F2).
      exists ms'. simpl. rewrite (Hs _ _ F). auto.
    + destruct (IH _ _ _ E) as (ms' & -> & F2).
      destruct (He _ _ F) as [S Rp].
      exists (p :: ms'). simpl. rewrite S, <- app_assoc. simpl. auto.
    + discriminate.
Qed.

(** On a JSON object, whatever its entries, when the loop ends its records
    are, in the order of the payload, those of the entries that are a
    mapping with a timestamp and a float value, one each: the tags are those
    given, the measurement is the key, the timestamp is the entry's, read in
    the fixed format, and the value is the entry's float. *)
Theorem records_are_the_complete_entries (loc sta : string)
        (d : list (string * pyval)) (c c' : InfluxDBClient)
        (ms : list Point) (es : list event) :
  distinct (dict_keys d) = true ->
  collect_messages loc sta (PyDict d) c = (Ok ms, es, c') ->
  Forall2 (record_of_entry loc sta) (filter complete_entry d) ms.
Proof.
  intros N E.
  rewrite (collect_messages_dict _ _ _ _ (distinct_NoDup _ N)) in E.
  inversion E as [[F C]].
  destruct (fold_outcomes_ok_inv (record_of_entry loc sta)
              (fun kv => classify loc sta (PyStr (fst kv)) (snd kv))
              complete_entry d) with (acc := @nil Point) (ms := ms) (es := es)
    as (ms' & -> & F2).
  - intros [k v] p. apply classify_emit_complete.
  - intros [k v] ev. apply classify_skip_incomplete.
  - exact F.
  - exact F2.
Qed.

Lemma records_are_the_complete_entries_witness :
  Forall2 (record_of_entry "greenhouse1" "stationA")
          (filter complete_entry payload_partial) [point_A].
Proof.
  apply (records_are_the_complete_entries "greenhouse1" "stationA"
           payload_partial new_client new_client [point_A]
           [LogWarningNoTimestamp "greenhouse1" "stationA" (PyStr "note");
            LogWarningNoTimestamp "greenhouse1" "stationA" (PyStr "humidity");
            LogWarningNonFloat (PyBool true) "greenhouse1" "stationA"
                               (PyStr "door")]).
  - vm_compute. reflexivity.
  - vm_compute. reflexivity.
Defined.

Lemma fold_outcomes_count os :
  forall acc ms es,
    fold_outcomes os acc = (Ok ms, es) ->
    List.length ms + List.length es = List.length acc + List.length os.
Proof.
  induction os as [|o r IH]; intros acc ms es E; simpl in E.
  - inversion E; subst. simpl. lia.
  - destruct o.
    + destruct (fold_outcomes r acc) as [res es'] eqn:G.
      inversion E; subst. specialize (IH _ _ _ G). simpl. lia.
    + specialize (IH _ _ _ E). rewrite length_app in IH. simpl in *. lia.
    + discriminate.
Qed.

(** No entry is dropped unnoticed: when the loop ends, every entry of the
    payload has given either one record or one warning, so that records and
    warnings together are as many as the entries. *)
Theorem every_entry_is_recorded_or_warned (loc sta : string)
        (d : list (string * pyval)) (c c' : InfluxDBClient)
        (ms : list Point) (es : list event) :
  collect_messages loc sta (PyDict d) c = (Ok ms, es, c') ->
  List.length ms + List.length es = List.length d
  /\ forallb is_warning es = true.
Proof.
  intros E. rewrite collect_messages_decode in E. inversion E as [[D C]].
  split.
  - unfold decode in D. simpl in D.
    apply fold_outcomes_count in D. simpl in D.
    unfold dict_keys in D. rewrite !length_map in D. exact D.
  - pose proof (decode_warnings loc sta (PyDict d)) as W.
    rewrite D in W. exact W.
Qed.

Lemma every_entry_is_recorded_or_warned_witness :
  List.length [point_A] + 3 = List.length payload_partial
  /\ forallb is_warning
       [LogWarningNoTimestamp "greenhouse1" "stationA" (PyStr "note");
        LogWarningNoTimestamp "greenhouse1" "stationA" (PyStr "humidity");
        LogWarningNonFloat (PyBool true) "greenhouse1" "stationA"
                           (PyStr "door")] = true.
Proof.
  apply (every_entry_is_recorded_or_warned "greenhouse1" "stationA"
           payload_partial new_client new_client [point_A]
           [LogWarningNoTimestamp "greenhouse1" "stationA" (PyStr "note");
            LogWarningNoTimestamp "greenhouse1" "stationA" (PyStr "humidity");
            LogWarningNonFloat (PyBool true) "greenhouse1" "stationA"
                               (PyStr "door")]).
  vm_compute. reflexivity.
Defined.

Lemma fold_outcomes_result_skip os1 ev os2 acc :
  fst (fold_outcomes (os1 ++ Skip ev :: os2) acc) =
  fst (fold_outcomes (os1 ++ os2) acc).
Proof.
  revert acc. induction os1 as [|o r IH]; intros acc; simpl.
  - destruct (fold_outcomes os2 acc). reflexivity.
  - destruct o; simpl.
    + specialize (IH acc).
      destruct (fold_outcomes (r ++ Skip ev :: os2) acc),
               (fold_outcomes (r ++ os2) acc). exact IH.
    + apply IH.
    + reflexivity.
Qed.

Lemma classify_skipped loc sta meas v :
  skipped_entry v = true -> exists ev, classify loc sta meas v = Skip ev.
Proof.
  unfold skipped_entry, classify, has_timestamp.
  destruct v as [| | | | | |e]; try discriminate. simpl.
  destruct (dict_lookup "timestamp" e) as [ts|]; simpl;
    [|intros _; eexists; reflexivity].
  rewrite entry_value_get.
  destruct (dict_lookup "value" e) as [got|]; simpl;
    [|intros _; eexists; reflexivity].
  unfold py_or. simpl.
  destruct got; simpl; intros H; try discriminate; eexists; reflexivity.
Qed.

Lemma dict_keys_app d1 d2 : dict_keys (d1 ++ d2) = dict_keys d1 ++ dict_keys d2.
Proof. apply map_app. Qed.

(** An entry that is a mapping and lacks the timestamp, or has one but no
    float value, does not count: the loop ends as it does on the payload
    without this entry, with the same records or the same exception. Its
    timestamp, if any, is not read. *)
Theorem skipped_entry_is_ignored (loc sta k : string) (v : pyval)
        (d1 d2 : list (string * pyval)) (c : InfluxDBClient) :
  distinct (dict_keys (d1 ++ (k, v) :: d2)) = true ->
  skipped_entry v = true ->
  result_of (collect_messages loc sta (PyDict (d1 ++ (k, v) :: d2)) c) =
  result_of (collect_messages loc sta (PyDict (d1 ++ d2)) c).
Proof.
  intros N S. apply distinct_NoDup in N.
  assert (N' : NoDup (dict_keys (d1 ++ d2))).
  { rewrite dict_keys_app in *. simpl in N. apply (NoDup_remove_1 _ _ _ N). }
  rewrite (collect_messages_dict _ _ _ _ N), (collect_messages_dict _ _ _ _ N').
  unfold result_of. simpl. rewrite !map_app. simpl.
  destruct (classify_skipped loc sta (PyStr k) v S) as (ev & ->).
  apply fold_outcomes_result_skip.
Qed.

Lemma skipped_entry_is_ignored_witness :
  result_of
    (collect_messages "greenhouse1" "stationA"
       (PyDict
          ([("temperature", entry_of "2024-01-01 12:00:00" (PyFloat 21.5))]
           ++ ("door", entry_of "not a date" (PyBool true))
           :: [("humidity", entry_of "2024-01-01 12:00:05" (PyFloat 40.25))]))
       new_client) =
  result_of
    (collect_messages "greenhouse1" "stationA"
       (PyDict
          ([("temperature", entry_of "2024-01-01 12:00:00" (PyFloat 21.5))]
           ++ [("humidity", entry_of "2024-01-01 12:00:05" (PyFloat 40.25))]))
       new_client).
Proof.
  apply (skipped_entry_is_ignored "greenhouse1" "stationA" "door"
           (entry_of "not a date" (PyBool true))
           [("temperature", entry_of "2024-01-01 12:00:00" (PyFloat 21.5))]
           [("humidity", entry_of "2024-01-01 12:00:05" (PyFloat 40.25))]
           new_client).
  - vm_compute. reflexivity.
  - vm_compute. reflexivity.
Defined.

(** ** The exceptions of the callback *)

Lemma dict_lookup_key k d :
  In k (dict_keys d) -> exists v, dict_lookup k d = Some v.
Proof.
  induction d as [|[k' v'] r IH]; simpl; [contradiction|].
  intros [->|H].
  - rewrite String.eqb_refl. eauto.
  - destruct (String.eqb k' k); eauto.
Qed.

Lemma seq_index_raise {A : Type} (l : list A) (i : Z) (e : exn) :
  seq_index l i = Raise e -> e = IndexError.
Proof.
  unfold seq_index. destruct (_ && _)%bool; [|congruence].
  destruct (nth_error l _); congruence.
Qed.

Lemma classify_fail loc sta meas entry e :
  classify loc sta meas entry = Fail e -> e = TypeError \/ e = ValueError.
Proof.
  unfold classify.
  destruct entry as [| | | |s|l|d]; simpl;
    try (intros H; inversion H; auto; fail).
  - destruct (py_str_contains "timestamp" s); intros H; inversion H; auto.
  - destruct (existsb (is_str "timestamp") l); intros H; inversion H; auto.
  - destruct (dict_lookup "timestamp" d) as [ts|]; [|discriminate].
    destruct (py_or PyNone _); try discriminate.
    unfold strptime. destruct ts; try (intros H; inversion H; auto; fail).
    destruct (Strptime.parse s); intros H; inversion H; auto.
Qed.

Lemma decode_entry_fail loc sta payload items x e :
  py_iter payload = Ok items -> In x items ->
  decode_entry loc sta payload x = Fail e ->
  guarded_against e = false
  /\ (is_object (Json payload) = true -> e = TypeError \/ e = ValueError).
Proof.
  intros I Hin. unfold decode_entry.
  destruct (py_getitem payload x) as [entry|e'] eqn:G.
  - intros H. apply classify_fail in H.
    split; [destruct H; subst; reflexivity|intros _; exact H].
  - intros H. inversion H; subst e'. clear H.
    destruct payload as [| | | |s|l|d]; simpl in *; try discriminate.
    + inversion I; subst. apply in_map_iff in Hin.
      destruct Hin as (ch & <- & _). simpl in G.
      inversion G; subst. split; [reflexivity|discriminate].
    + split; [|discriminate].
      destruct x; try (inversion G; subst; reflexivity);
        apply seq_index_raise in G; subst; reflexivity.
    + inversion I; subst. apply in_map_iff in Hin.
      destruct Hin as (k & <- & Hk).
      destruct (dict_lookup_key _ _ Hk) as (v & L). simpl in G.
      rewrite L in G. discriminate.
Qed.

Lemma fold_outcomes_raise os :
  forall acc e, fst (fold_outcomes os acc) = Raise e -> In (Fail e) os.
Proof.
  induction os as [|o r IH]; intros acc e H; simpl in H; [discriminate|].
  destruct o.
  - destruct (fold_outcomes r acc) eqn:F. simpl in H.
    right. apply (IH acc). rewrite F. exact H.
  - right. apply (IH _ _ H).
  - simpl in H. inversion H; subst. left. reflexivity.
Qed.

Lemma decode_raise loc sta payload e :
  fst (decode loc sta payload) = Raise e ->
  guarded_against e = false
  /\ (is_object (Json payload) = true -> e = TypeError \/ e = ValueError).
Proof.
  unfold decode. destruct (py_iter payload) as [items|e'] eqn:I.
  - intros H. apply fold_outcomes_raise in H. apply in_map_iff in H.
    destruct H as (x & F & Hin). apply (decode_entry_fail _ _ _ _ _ _ I Hin F).
  - simpl. intros H. inversion H; subst e'.
    destruct payload; simpl in *; try discriminate;
      inversion I; subst; (split; [reflexivity|discriminate]).
Qed.

(** The guards of lines 137 and 144 do their work: no [KeyError] and no
    [AttributeError] ever leaves the callback, whatever the message; and on
    a JSON object the only exceptions are [TypeError] (an entry that is not
    a mapping, a timestamp that is not a string), [ValueError] (a timestamp
    in another format) and the one of [write_points]. *)
Theorem no_key_error_escapes (message : MQTTMessage) (c : InfluxDBClient)
        (e : exn) :
  result_of (on_message message c) = Raise e ->
  guarded_against e = false
  /\ (is_object (msg_payload message) = true ->
      e = TypeError \/ e = ValueError \/ e = SinkUnavailable).
Proof.
  destruct message as [topic p]. simpl.
  destruct (route topic) as [[l s]|] eqn:R.
  - rewrite (on_message_valid _ _ _ _ _ R).
    destruct p as [| |v].
    + simpl. intros H. inversion H. split; [reflexivity|discriminate].
    + simpl. intros H. inversion H. split; [reflexivity|discriminate].
    + rewrite process_json.
      pose proof (decode_raise l s v) as D.
      destruct (decode l s v) as [[[|m ms]|e'] es]; unfold result_of; simpl.
      * discriminate.
      * unfold write_points. destruct (script c) as [|[|] r]; simpl;
          intros H; inversion H. split; [reflexivity|auto].
      * intros H. inversion H; subst e'.
        destruct (D e eq_refl) as [G O]. split; [exact G|].
        intros Ho. destruct (O Ho); auto.
  - rewrite (on_message_invalid _ _ _ R). discriminate.
Qed.

Lemma no_key_error_escapes_witness :
  guarded_against ValueError = false
  /\ (is_object (Json payload_bad_timestamp) = true ->
      ValueError = TypeError \/ ValueError = ValueError
      \/ ValueError = SinkUnavailable).
Proof.
  apply (no_key_error_escapes
           (mkMessage "greenhouse1/stationA" (Json payload_bad_timestamp))
           new_client ValueError).
  vm_compute. reflexivity.
Defined.

(** ** When the loop fails *)

Lemma classify_poisonous loc sta meas v :
  is_fail (classify loc sta meas v) = poisonous v.
Proof.
  unfold classify, poisonous.
  destruct v as [| | | |s|l|e]; simpl; try reflexivity.
  - destruct (py_str_contains "timestamp" s); reflexivity.
  - destruct (existsb (is_str "timestamp") l); reflexivity.
  - destruct (dict_lookup "timestamp" e) as [ts|]; [|reflexivity].
    rewrite entry_value_get.
    destruct (dict_lookup "value" e) as [got|]; [|reflexivity].
    unfold py_or. simpl.
    destruct got; try reflexivity.
    simpl. destruct (strptime ts); reflexivity.
Qed.

Lemma fold_outcomes_ok_iff os :
  forall acc,
    (exists ms es, fold_outcomes os acc = (Ok ms, es))
    <-> existsb is_fail os = false.
Proof.
  induction os as [|o r IH]; intros acc; simpl.
  - split; [reflexivity|]. intros _. eauto.
  - destruct o; simpl.
    + rewrite <- (IH acc). split.
      * intros (ms & es & E).
        destruct (fold_outcomes r acc) as [res es'].
        inversion E; subst. eauto.
      * intros (ms & es & ->). eauto.
    + apply IH.
    + split; [intros (ms & es & E); discriminate|discriminate].
Qed.

(** On a JSON object the loop ends, with records and warnings and without
    an exception, exactly when no entry is poisonous; one such entry,
    wherever it stands, makes the whole loop raise. *)
Theorem loop_ends_iff_no_poisonous_entry (loc sta : string)
        (d : list (string * pyval)) (c : InfluxDBClient) :
  distinct (dict_keys d) = true ->
  (exists ms es, collect_messages loc sta (PyDict d) c = (Ok ms, es, c))
  <-> existsb poisonous (map snd d) = false.
Proof.
  intros N. rewrite (collect_messages_dict _ _ _ _ (distinct_NoDup _ N)).
  assert (E : existsb is_fail
                (map (fun kv => classify loc sta (PyStr (fst kv)) (snd kv)) d)
              = existsb poisonous (map snd d)).
  { clear N. induction d as [|[k v] r IH]; simpl; [reflexivity|].
    rewrite classify_poisonous, IH. reflexivity. }
  rewrite <- E, <- (fold_outcomes_ok_iff _ []).
  split; intros (ms & es & H); exists ms, es.
  - inversion H. reflexivity.
  - rewrite H. reflexivity.
Qed.

Lemma loop_ends_iff_no_poisonous_entry_witness :
  (exists ms es,
      collect_messages "greenhouse1" "stationA" (PyDict payload_partial)
                       new_client = (Ok ms, es, new_client))
  <-> existsb poisonous (map snd payload_partial) = false.
Proof.
  apply (loop_ends_iff_no_poisonous_entry "greenhouse1" "stationA"
           payload_partial new_client).
  vm_compute. reflexivity.
Defined.

(** ** Payloads that are not a mapping: which exception *)



(** Each of the three exceptions does leave the callback on some array. *)
Example array_type_error :
  result_of (on_message (mkMessage "greenhouse1/stationA"
                                   (Json (PyList [PyDict []]))) new_client)
  = Raise TypeError.
Proof. vm_compute. reflexivity. Qed.

Example array_index_error :
  result_of (on_message (mkMessage "greenhouse1/stationA"
                                   (Json (PyList [PyInt 5]))) new_client)
  = Raise IndexError.
Proof. vm_compute. reflexivity. Qed.

Example array_value_error :
  result_of (on_message
               (mkMessage "greenhouse1/stationA"
                  (Json (PyList [PyInt 1; entry_of "bad" (PyFloat 1.5)])))
               new_client)
  = Raise ValueError.
Proof. vm_compute. reflexivity. Qed.


